(** * loops-expo: the [Button] and [AppText] presentational components

    A shallow embedding of the two React Native components of the
    repository (the [Button] component and
    [src/components/AppText.tsx]) and the properties of their
    prop-to-class mapping.

    TypeScript unions of string literals are inductive types together
    with the string each value is at run time; optional props are
    [option]s ([None] is an omitted prop, i.e. [undefined]); the two
    lookup tables are string-keyed maps, as the JavaScript objects they
    are. *)

From stdpp Require Import gmap strings list.

Local Open Scope string_scope.

(** ** JavaScript operators used by the components *)

Module JS.

(** [a && b] with a boolean [a] and a string-or-undefined [b]: the result
    is [b] when [a] holds and the falsy [false] otherwise.  [None] stands
    for every falsy result. *)
Definition and (a : bool) (b : option string) : option string :=
  if a then b else None.

(** [a === b] on strings. *)
Definition strict_eq (a b : string) : bool := String.eqb a b.

(** [s.includes(searchString)]: [searchString] occurs at some position
    of [s]. *)
Fixpoint includes (searchString s : string) : bool :=
  String.prefix searchString s
  || match s with
     | EmptyString => false
     | String _ s' => includes searchString s'
     end.

End JS.

Infix "&&&" := JS.and (at level 40, left associativity).
Infix "===" := JS.strict_eq (at level 70, no associativity).

(** ** The styling helper *)

Module tw.

(** Modelled from the spec: [tw.style] is the utility-class styling
    helper of the twrnc package, which is not part of the repository.
    Only its class-name composition is kept: falsy arguments are skipped
    and every other argument contributes its space-separated utility
    classes, in argument order. *)
Definition style (args : list (option string)) : list string :=
  s ← omap id args; String.words s.

End tw.

(** ** The toolkit's elements *)

Module RN.

Section Elements.

Context {Handler ViewStyle Rest : Type}.

(** [<Text style={..}>{children}</Text>] *)
Record Text (Children : Type) : Type := mkText {
  Text_style : list string;
  Text_children : Children
}.

(** [<ActivityIndicator size=".." color=".." />] *)
Record ActivityIndicator : Type := mkActivityIndicator {
  ActivityIndicator_size : string;
  ActivityIndicator_color : string
}.

(** The one child [Button] gives its [Pressable]. *)
Inductive Child : Type :=
| Spinner (indicator : ActivityIndicator)
| Label (text : Text string).

(** [<Pressable onPress disabled style {...rest}>child</Pressable>].  The
    [style] prop is a callback from the press state to the style array
    [[tw.style(..), style]]; it is [None] when the callback throws.
    [Pressable_rest] is the object spread into the element; the child
    written in the JSX is set after it, so it replaces a [children] member
    of the spread object. *)
Record Pressable : Type := mkPressable {
  Pressable_onPress : option Handler;
  Pressable_disabled : bool;
  Pressable_style : bool -> option (list string * option ViewStyle);
  Pressable_rest : Rest;
  Pressable_children : Child
}.

(** Modelled from the spec: [Pressable] is react-native's, not the
    repository's.  Of its behaviour only the contract the components rely
    on is kept: a press reaches the [onPress] handler only while the
    element is not disabled. *)
Definition press (el : Pressable) : option Handler :=
  if Pressable_disabled el then None else Pressable_onPress el.

End Elements.

Arguments Text : clear implicits.
Arguments mkText {Children} _ _.
Arguments Text_style {Children} _.
Arguments Text_children {Children} _.
Arguments Child : clear implicits.
Arguments Pressable : clear implicits.

End RN.

(** ** [Button] *)

Module COLORS.
Definition primary := "#F02C56".
Definition action := "#0095f6".
Definition light := "#f1f1f1".
Definition white := "#ffffff".
Definition black := "#000000".
Definition gray := "#8e8e8e".
Definition transparent := "transparent".
End COLORS.

Module Button.

Inductive ButtonSize : Type := small | medium | large | xlarge.

Inductive ButtonTheme : Type :=
| primary
| action
| light
| primary_outlined
| action_outlined
| light_outlined.

(** The run-time value of a [ButtonSize]. *)
Definition ButtonSize_str (size : ButtonSize) : string :=
  match size with
  | small => "small"
  | medium => "medium"
  | large => "large"
  | xlarge => "xlarge"
  end.

(** The run-time value of a [ButtonTheme]. *)
Definition ButtonTheme_str (theme : ButtonTheme) : string :=
  match theme with
  | primary => "primary"
  | action => "action"
  | light => "light"
  | primary_outlined => "primary-outlined"
  | action_outlined => "action-outlined"
  | light_outlined => "light-outlined"
  end.

(** Size mappings for padding and text. *)
Definition sizeConfig : gmap string (gmap string string) :=
  {[ "small" := {[ "paddingX" := "px-3"; "paddingY" := "py-2";
                   "textSize" := "text-sm"; "rounded" := "rounded-md" ]};
     "medium" := {[ "paddingX" := "px-4"; "paddingY" := "py-3";
                    "textSize" := "text-base"; "rounded" := "rounded-lg" ]};
     "large" := {[ "paddingX" := "px-6"; "paddingY" := "py-4";
                   "textSize" := "text-lg"; "rounded" := "rounded-lg" ]};
     "xlarge" := {[ "paddingX" := "px-8"; "paddingY" := "py-5";
                    "textSize" := "text-xl"; "rounded" := "rounded-xl" ]} ]}.

(** Theme configuration. *)
Definition themeConfig : gmap string (gmap string string) :=
  {[ "primary" :=
       {[ "bg" := "bg-[" +:+ COLORS.primary +:+ "]";
          "border" := "border-[" +:+ COLORS.primary +:+ "]";
          "text" := "text-white";
          "pressedBg" := "bg-[#d02647]";
          "disabledBg" := "bg-[#f59db3]" ]};
     "action" :=
       {[ "bg" := "bg-[" +:+ COLORS.action +:+ "]";
          "border" := "border-[" +:+ COLORS.action +:+ "]";
          "text" := "text-white";
          "pressedBg" := "bg-[#0077cc]";
          "disabledBg" := "bg-[#7fc7fa]" ]};
     "light" :=
       {[ "bg" := "bg-[" +:+ COLORS.light +:+ "]";
          "border" := "border-[" +:+ COLORS.light +:+ "]";
          "text" := "text-black";
          "pressedBg" := "bg-[#e0e0e0]";
          "disabledBg" := "bg-[#f8f8f8]" ]};
     "primary-outlined" :=
       {[ "bg" := "bg-transparent";
          "border" := "border-[" +:+ COLORS.primary +:+ "]";
          "text" := "text-[" +:+ COLORS.primary +:+ "]";
          "pressedBg" := "bg-[#fef0f3]";
          "disabledBg" := "bg-transparent";
          "disabledText" := "text-[#f59db3]" ]};
     "action-outlined" :=
       {[ "bg" := "bg-transparent";
          "border" := "border-[" +:+ COLORS.action +:+ "]";
          "text" := "text-[" +:+ COLORS.action +:+ "]";
          "pressedBg" := "bg-[#e6f5ff]";
          "disabledBg" := "bg-transparent";
          "disabledText" := "text-[#7fc7fa]" ]};
     "light-outlined" :=
       {[ "bg" := "bg-transparent";
          "border" := "border-[" +:+ COLORS.gray +:+ "]";
          "text" := "text-gray-800";
          "pressedBg" := "bg-[#f8f8f8]";
          "disabledBg" := "bg-transparent";
          "disabledText" := "text-gray-400" ]} ]}.

(** Determine spinner color based on theme (the closure of [Button],
    lifted over the [theme] it captures). *)
Definition getSpinnerColor (theme : ButtonTheme) : string :=
  if JS.includes "outlined" (ButtonTheme_str theme) then
    if ButtonTheme_str theme === "primary-outlined" then COLORS.primary
    else if ButtonTheme_str theme === "action-outlined" then COLORS.action
    else COLORS.gray
  else
    if ButtonTheme_str theme === "light" then COLORS.black else COLORS.white.

Section Component.

Context {Handler ViewStyle Rest : Type}.

(** [ButtonProps]; [rest] holds the remaining [Pressable] props that the
    parameter pattern collects. *)
Record ButtonProps : Type := mkButtonProps {
  title : string;
  onPress : option Handler;
  theme : option ButtonTheme;
  size : option ButtonSize;
  disabled : option bool;
  loading : option bool;
  full : option bool;
  style : option ViewStyle;
  rest : Rest
}.

(** The component.  A table lookup with a missing key is [undefined]
    ([None]); reading a property of it throws, which the option monad
    propagates: out of [Button] when the label is built during the
    render, out of the style callback when the toolkit calls it. *)
Definition Button (props : ButtonProps)
  : option (RN.Pressable Handler ViewStyle Rest) :=
  let '(mkButtonProps title onPress theme size disabled loading full
          style rest) := props in
  let theme := default primary_outlined theme in
  let size := default medium size in
  let disabled := default false disabled in
  let loading := default false loading in
  let full := default false full in
  let isDisabled := disabled || loading in
  let themeStyles := themeConfig !! ButtonTheme_str theme in
  let sizeStyles := sizeConfig !! ButtonSize_str size in
  children ←
    (if loading then
       Some (RN.Spinner
               (RN.mkActivityIndicator "small" (getSpinnerColor theme)))
     else
       sizeStyles ← sizeStyles;
       themeStyles ← themeStyles;
       Some (RN.Label
               (RN.mkText
                  (tw.style
                     [ Some "font-semibold tracking-wide";
                       sizeStyles !! "textSize";
                       themeStyles !! "text";
                       (* Disabled text color for outlined variants *)
                       isDisabled &&& themeStyles !! "disabledText" ])
                  title)));
  Some (RN.mkPressable
          onPress
          isDisabled
          (fun pressed =>
             sizeStyles ← sizeStyles;
             themeStyles ← themeStyles;
             Some (tw.style
                     [ Some "flex-row items-center justify-center border-[1px]";
                       sizeStyles !! "paddingX";
                       sizeStyles !! "paddingY";
                       sizeStyles !! "rounded";
                       themeStyles !! "bg";
                       themeStyles !! "border";
                       (* Pressed state *)
                       (pressed && negb isDisabled) &&& themeStyles !! "pressedBg";
                       (* Disabled state *)
                       isDisabled &&& themeStyles !! "disabledBg";
                       isDisabled &&& Some "opacity-60";
                       (* Full width *)
                       full &&& Some "flex-1" ],
                   style))
          rest
          children).

End Component.

Arguments ButtonProps : clear implicits.

End Button.

(** ** [AppText] *)

Module AppText.

Inductive Size : Type := small | medium | large | heading.

Inductive Color : Type := primary | secondary | tertiary.

(** The run-time value of the [size] prop. *)
Definition Size_str (size : Size) : string :=
  match size with
  | small => "small"
  | medium => "medium"
  | large => "large"
  | heading => "heading"
  end.

(** The run-time value of the [color] prop. *)
Definition Color_str (color : Color) : string :=
  match color with
  | primary => "primary"
  | secondary => "secondary"
  | tertiary => "tertiary"
  end.

Section Component.

Context {ReactNode : Type}.

Record AppTextProps : Type := mkAppTextProps {
  children : ReactNode;
  size : option Size;
  bold : option bool;
  color : option Color;
  center : option bool;
  className : option string
}.

Definition AppText (props : AppTextProps) : RN.Text ReactNode :=
  let '(mkAppTextProps children size bold color center className) := props in
  let size := default medium size in
  let bold := default false bold in
  let color := default primary color in
  let center := default false center in
  RN.mkText
    (tw.style
       [ (Size_str size === "small") &&& Some "text-sm mb-2";
         (Size_str size === "medium") &&& Some "text-base mb-3";
         (Size_str size === "large") &&& Some "text-lg mb-4";
         (Size_str size === "heading") &&& Some "text-xl mb-5";
         bold &&& Some "font-bold";
         (Color_str color === "primary") &&& Some "text-black";
         (Color_str color === "secondary") &&& Some "text-gray-500";
         (Color_str color === "tertiary") &&& Some "text-gray-400";
         center &&& Some "text-center";
         className ])
    children.

End Component.

Arguments AppTextProps : clear implicits.

End AppText.

(** ** What a render shows *)

Section Observations.

Context {Handler ViewStyle Rest : Type}.

Implicit Types p : Button.ButtonProps Handler ViewStyle Rest.

(** The class of the theme's table entry under [field], if both exist. *)
Definition themeClass (theme : Button.ButtonTheme) (field : string)
  : option string :=
  entry ← Button.themeConfig !! Button.ButtonTheme_str theme; entry !! field.

(** The class of the size's table entry under [field], if both exist. *)
Definition sizeClass (size : Button.ButtonSize) (field : string)
  : option string :=
  entry ← Button.sizeConfig !! Button.ButtonSize_str size; entry !! field.

(** The style array the toolkit computes for a press state: the render
    followed by a call of the [style] callback. *)
Definition computedStyle p (pressed : bool)
  : option (list string * option ViewStyle) :=
  el ← Button.Button p; RN.Pressable_style el pressed.

(** The utility classes of the computed style. *)
Definition pressableClasses p (pressed : bool) : option (list string) :=
  fst <$> computedStyle p pressed.

(** The child of the rendered [Pressable]. *)
Definition child p : option (RN.Child) :=
  RN.Pressable_children <$> Button.Button p.

(** The label a disabled button of the theme and size shows: the label's
    fixed classes, the size's text size, the theme's text colour and, last,
    the theme's [disabledText] class when the theme defines one. *)
Definition disabledLabel (theme : Button.ButtonTheme)
    (size : Button.ButtonSize) (title : string) : RN.Child :=
  RN.Label
    (RN.mkText
       (tw.style [ Some "font-semibold tracking-wide";
                   sizeClass size "textSize";
                   themeClass theme "text";
                   themeClass theme "disabledText" ])
       title).

(** The look of a disabled button: the computed style carries
    ['opacity-60'] and the theme's [disabledBg] class, and the [Pressable]
    has its [disabled] flag set. *)
Definition disabledLook p (pressed : bool) : Prop :=
  let theme := default Button.primary_outlined (Button.theme p) in
  ∃ el classes disabledBg,
    Button.Button p = Some el ∧
    pressableClasses p pressed = Some classes ∧
    "opacity-60" ∈ classes ∧
    themeClass theme "disabledBg" = Some disabledBg ∧
    disabledBg ∈ classes ∧
    RN.Pressable_disabled el = true.

(** The [disabledText] class is applied to the label text exactly for the
    themes that define one. *)
Definition disabledTextOnLabel p : Prop :=
  let theme := default Button.primary_outlined (Button.theme p) in
  let size := default Button.medium (Button.size p) in
  child p = Some (disabledLabel theme size (Button.title p)).

End Observations.

(** ** Visual attributes of utility classes *)

Module Tailwind.

Inductive Attribute : Type :=
| padding
| roundedCorners
| backgroundColor
| textColor
| opacity
| flexLayout
| alignment
| borderWidth
| borderColor
| fontWeight
| letterSpacing
| textSize
| margin
| other.

#[global] Instance Attribute_eq_dec : EqDecision Attribute.
Proof. solve_decision. Defined.

(** [c] starts with one of [prefixes]. *)
Definition startsWith (prefixes : list string) (c : string) : bool :=
  existsb (fun pre => String.prefix pre c) prefixes.

(** [c] is [pre] followed by one of [suffixes]. *)
Definition oneOf (pre : string) (suffixes : list string) (c : string) : bool :=
  existsb (fun suf => String.eqb c (pre +:+ suf)) suffixes.

(** Modelled from the spec: the visual attribute a utility class sets,
    by the naming convention of the Tailwind vocabulary that the styling
    helper reads (the vocabulary itself is not part of the repository).
    The [text-] family is split by its suffix into sizes, alignments and
    colours, and the [border-] family into widths and colours. *)
Definition attribute (c : string) : Attribute :=
  if startsWith ["p-"; "px-"; "py-"; "pt-"; "pb-"; "pl-"; "pr-"] c then padding
  else if startsWith ["m-"; "mx-"; "my-"; "mt-"; "mb-"; "ml-"; "mr-"] c then margin
  else if startsWith ["rounded"] c then roundedCorners
  else if startsWith ["bg-"] c then backgroundColor
  else if startsWith ["opacity-"] c then opacity
  else if startsWith ["tracking-"] c then letterSpacing
  else if oneOf "font-" ["thin"; "light"; "normal"; "medium"; "semibold";
                         "bold"; "extrabold"; "black"] c then fontWeight
  else if oneOf "text-" ["xs"; "sm"; "base"; "lg"; "xl"; "2xl"; "3xl"] c then textSize
  else if oneOf "text-" ["left"; "center"; "right"; "justify"] c then alignment
  else if startsWith ["text-"] c then textColor
  else if startsWith ["items-"; "justify-"; "self-"; "content-"] c then alignment
  else if String.eqb c "flex" || startsWith ["flex-"] c then flexLayout
  else if String.eqb c "border"
          || oneOf "border-" ["0"; "2"; "4"; "8"] c
          || (startsWith ["border-["] c && negb (startsWith ["border-[#"] c))
       then borderWidth
  else if startsWith ["border-"] c then borderColor
  else other.

(** The attributes the specification names. *)
Definition specified : list Attribute :=
  [padding; roundedCorners; backgroundColor; textColor; opacity].

(** The further attributes the components set. *)
Definition further : list Attribute :=
  [flexLayout; alignment; borderWidth; borderColor; fontWeight;
   letterSpacing; textSize; margin].

(** Every class of [classes] sets an attribute of [allowed]. *)
Definition within (allowed : list Attribute) (classes : list string) : Prop :=
  Forall (fun c => attribute c ∈ allowed) classes.

(** The classes of [classes], in order, that set an attribute the
    specification does not name. *)
Definition unspecified (classes : list string) : list string :=
  List.filter (fun c => bool_decide (attribute c ∉ specified)) classes.

End Tailwind.

(** ** The class tables as the specification words them *)

Module Spec.

Definition spinnerColor (theme : Button.ButtonTheme) : string :=
  match theme with
  | Button.primary_outlined => "#F02C56"
  | Button.action_outlined => "#0095f6"
  | Button.light_outlined => "#8e8e8e"
  | Button.light => "#000000"
  | Button.primary | Button.action => "#ffffff"
  end.

Definition textSizeClasses (size : AppText.Size) : string :=
  match size with
  | AppText.small => "text-sm mb-2"
  | AppText.medium => "text-base mb-3"
  | AppText.large => "text-lg mb-4"
  | AppText.heading => "text-xl mb-5"
  end.

Definition textColorClass (color : AppText.Color) : string :=
  match color with
  | AppText.primary => "text-black"
  | AppText.secondary => "text-gray-500"
  | AppText.tertiary => "text-gray-400"
  end.

End Spec.

(** ** The class that takes effect *)

(** The last class of [classes] that starts with [pre]: among utility
    classes of one family, the one written last. *)
Definition lastWithPrefix (pre : string) (classes : list string)
  : option string :=
  last (List.filter (String.prefix pre) classes).

#[global] Instance ButtonTheme_eq_dec : EqDecision Button.ButtonTheme.
Proof. solve_decision. Defined.

#[global] Instance ButtonSize_eq_dec : EqDecision Button.ButtonSize.
Proof. solve_decision. Defined.

(** * Properties *)

(** Closed decidable goals are settled by evaluation. *)
Ltac decide_closed :=
  match goal with
  | |- ?P => apply (bool_decide_unpack P); vm_compute; exact I
  end.

(** An equation between a closed computation and its value. *)
Ltac evaluate := vm_compute; reflexivity.

(** ** The operators on sample inputs *)

Example includes_outlined :
  JS.includes "outlined" "light-outlined" = true
  ∧ JS.includes "outlined" "light" = false
  ∧ JS.includes "" "" = true.
Proof. by repeat split. Qed.

Example style_skips_falsy_arguments :
  tw.style [Some "px-4  py-3"; None; false &&& Some "flex-1"; Some "";
            true &&& Some "opacity-60"]
  = ["px-4"; "py-3"; "opacity-60"].
Proof. reflexivity. Qed.

(** ** Lemmas shared by the properties *)

Section ButtonDefaults.

Context {Handler ViewStyle Rest : Type}.

(** An omitted prop and its default given explicitly render alike, so a
    render is determined by the defaulted values. *)
Lemma Button_defaults title onPress theme size disabled loading full style rest :
  Button.Button (Handler := Handler) (ViewStyle := ViewStyle) (Rest := Rest)
    (Button.mkButtonProps title onPress theme size disabled loading full
       style rest)
  = Button.Button
      (Button.mkButtonProps title onPress
         (Some (default Button.primary_outlined theme))
         (Some (default Button.medium size))
         (Some (default false disabled))
         (Some (default false loading))
         (Some (default false full))
         style rest).
Proof. by destruct theme, size, disabled, loading, full. Qed.

End ButtonDefaults.

(** Reduces a goal about the render of [p] to the defaulted values of the
    five style-selection props. *)
Ltac button_cases p :=
  destruct p as [title onPress theme size disabled loading full style rest];
  unfold disabledLook, disabledTextOnLabel, child, pressableClasses,
    computedStyle;
  rewrite Button_defaults;
  cbn [Button.title Button.onPress Button.theme Button.size Button.disabled
       Button.loading Button.full Button.style Button.rest];
  generalize (default Button.primary_outlined theme)
    (default Button.medium size) (default false disabled)
    (default false loading) (default false full);
  clear theme size disabled loading full;
  intros theme size disabled loading full.

Section AppTextClassName.

Context {ReactNode : Type}.

(** The [className] prop only appends its classes to those selected by
    the other props. *)
Lemma AppText_className children size bold color center className :
  RN.Text_style
    (AppText.AppText (ReactNode := ReactNode)
       (AppText.mkAppTextProps children size bold color center className))
  = (RN.Text_style
       (AppText.AppText
          (AppText.mkAppTextProps children size bold color center None))
     ++ from_option String.words [] className)%list.
Proof.
  unfold AppText.AppText.
  generalize (default AppText.medium size) (default false bold)
    (default AppText.primary color) (default false center).
  intros [] [] [] []; destruct className; cbn -[String.words];
    by rewrite ?app_nil_r.
Qed.

End AppTextClassName.

(** ** The claims of the specification *)

Section Properties.

Context {Handler ViewStyle Rest ReactNode : Type}.

Implicit Types p : Button.ButtonProps Handler ViewStyle Rest.
Implicit Types q : AppText.AppTextProps ReactNode.

(** C1 as the specification states it fails on a loading button of an
    outlined theme: the theme defines a [disabledText] class, but the
    child of the [Pressable] is the spinner, so no label text carries
    it. *)
Lemma loading_button_shows_no_label :
  let p : Button.ButtonProps unit unit unit :=
    Button.mkButtonProps "Save" None (Some Button.primary_outlined) None
      None (Some true) None None tt in
  themeClass Button.primary_outlined "disabledText" = Some "text-[#f59db3]" ∧
  child p = Some (RN.Spinner (RN.mkActivityIndicator "small" "#F02C56")) ∧
  ¬ (default false (Button.disabled p) = true
     ∨ default false (Button.loading p) = true →
     disabledLook p false ∧ disabledTextOnLabel p).
Proof.
  intros p. split; [evaluate|]. split; [evaluate|].
  intros H. destruct H as [_ H]; [by right|].
  vm_compute in H. discriminate H.
Qed.

(** C1, as amended: when [disabled] or [loading] is true the computed
    style carries ['opacity-60'] and the theme's [disabledBg] class and
    the [Pressable] is disabled; while [loading] is false the label
    carries the theme's [disabledText] class exactly for the themes that
    define one, and while [loading] is true the child is the spinner, so
    no label is rendered. *)
Theorem disabled_button_look p pressed :
  default false (Button.disabled p) = true
  ∨ default false (Button.loading p) = true →
  disabledLook p pressed ∧
  if default false (Button.loading p)
  then ∃ indicator, child p = Some (RN.Spinner indicator)
  else disabledTextOnLabel p.
Proof.
  button_cases p.
  destruct disabled; destruct loading; (intros [?|?]; try discriminate);
    cbv zeta; destruct theme, size, full, pressed;
    (split;
     [ eexists _, _, _; split; [evaluate|]; split; [evaluate|];
       split; [decide_closed|]; split; [evaluate|];
       split; [decide_closed | reflexivity]
     | first [ evaluate | eexists; evaluate ] ]).
Qed.

(** C2: the child of the [Pressable] is an [ActivityIndicator] exactly
    when [loading] is true, and it is a [Text] holding exactly the [title]
    exactly when [loading] is false. *)
Theorem child_by_loading p :
  ∃ c,
    child p = Some c ∧
    ((∃ indicator, c = RN.Spinner indicator)
       ↔ default false (Button.loading p) = true) ∧
    ((∃ classes, c = RN.Label (RN.mkText classes (Button.title p)))
       ↔ default false (Button.loading p) = false).
Proof.
  button_cases p.
  destruct theme, size, disabled, loading, full;
    (eexists; split; [evaluate|]);
    (split; split; first [ done | by intros [? ?] | by eexists ]).
Qed.

(** C3 as the specification states it fails already on the default props:
    [AppText] emits the margin class ['mb-3'] and [Button] the flex-layout
    class ['flex-row'], neither of which sets an attribute the
    specification names. *)
Lemma default_classes_outside_specified :
  let q : AppText.AppTextProps unit :=
    AppText.mkAppTextProps tt None None None None None in
  let p : Button.ButtonProps unit unit unit :=
    Button.mkButtonProps "Save" None None None None None None None tt in
  ("mb-3" ∈ RN.Text_style (AppText.AppText q)
   ∧ Tailwind.attribute "mb-3" = Tailwind.margin
   ∧ ¬ Tailwind.within Tailwind.specified (RN.Text_style (AppText.AppText q))) ∧
  (fst <$> computedStyle p false
     = Some ["flex-row"; "items-center"; "justify-center"; "border-[1px]";
             "px-4"; "py-3"; "rounded-lg"; "bg-transparent";
             "border-[#F02C56]"]
   ∧ Tailwind.attribute "flex-row" = Tailwind.flexLayout
   ∧ ¬ ∃ classes, pressableClasses p false = Some classes
                  ∧ Tailwind.within Tailwind.specified classes).
Proof.
  intros q p. unfold Tailwind.within. repeat split; try evaluate.
  - decide_closed.
  - decide_closed.
  - intros (classes & Hclasses & Hwithin).
    vm_compute in Hclasses. injection Hclasses as <-.
    revert Hwithin. decide_closed.
Qed.

(** Every further attribute is already set under the default props. *)
Lemma further_attributes_are_emitted :
  let q : AppText.AppTextProps unit :=
    AppText.mkAppTextProps tt None None None None None in
  let emitted :=
    (RN.Text_style (AppText.AppText q)
     ++ ["flex-row"; "items-center"; "justify-center"; "border-[1px]";
         "px-4"; "py-3"; "rounded-lg"; "bg-transparent"; "border-[#F02C56]"]
     ++ ["font-semibold"; "tracking-wide"; "text-base"; "text-[#F02C56]"])%list in
  Forall (fun a => a ∈ Tailwind.attribute <$> emitted) Tailwind.further.
Proof. cbv zeta. decide_closed. Qed.

(** C3, as amended: every class the components produce from their
    style-selection props sets a padding, rounded-corner,
    background-colour, text-colour or opacity attribute, or one of the
    further attributes: flex layout, alignment, border width, border
    colour, font weight, letter spacing, text size, margin.  The classes
    outside the five attributes the specification names are exactly
    these: on the [Pressable], in every state, ['flex-row'],
    ['items-center'], ['justify-center'], ['border-[1px]'] and the theme's
    border class, and ['flex-1'] when [full]; on the label, whenever it is
    rendered, ['font-semibold'], ['tracking-wide'] and the size's text
    size; on [AppText] the size's text-size and margin classes,
    ['font-bold'] when [bold] and ['text-center'] when [center]. *)
Theorem classes_within_emitted_attributes p pressed children size bold color
    center :
  let allowed := (Tailwind.specified ++ Tailwind.further)%list in
  let selected :=
    RN.Text_style
      (AppText.AppText (ReactNode := ReactNode)
         (AppText.mkAppTextProps children size bold color center None)) in
  (∃ classes,
      pressableClasses p pressed = Some classes
      ∧ Tailwind.within allowed classes
      ∧ Some <$> Tailwind.unspecified classes
        = ([ Some "flex-row"; Some "items-center"; Some "justify-center";
             Some "border-[1px]";
             themeClass (default Button.primary_outlined (Button.theme p))
               "border" ]
           ++ if default false (Button.full p) then [Some "flex-1"] else [])%list) ∧
  (∃ c,
      child p = Some c
      ∧ match c with
        | RN.Label text =>
            Tailwind.within allowed (RN.Text_style text)
            ∧ Some <$> Tailwind.unspecified (RN.Text_style text)
              = [ Some "font-semibold"; Some "tracking-wide";
                  sizeClass (default Button.medium (Button.size p))
                    "textSize" ]
        | RN.Spinner _ => default false (Button.loading p) = true
        end) ∧
  Tailwind.within allowed selected ∧
  Tailwind.unspecified selected
  = (String.words (Spec.textSizeClasses (default AppText.medium size))
     ++ (if default false bold then ["font-bold"] else [])
     ++ (if default false center then ["text-center"] else []))%list.
Proof.
  cbv zeta. unfold Tailwind.within. split; [|split].
  - clear children size bold color center. button_cases p.
    destruct theme, size, disabled, loading, full, pressed;
      (eexists; split; [evaluate|]; split; [decide_closed | evaluate]).
  - clear children size bold color center. button_cases p.
    destruct theme, size, disabled, loading, full;
      (eexists; split; [evaluate|]); lazy beta iota;
      first [ reflexivity | split; [decide_closed | evaluate] ].
  - unfold AppText.AppText.
    generalize (default AppText.medium size) (default false bold)
      (default AppText.primary color) (default false center).
    intros [] [] [] []; (split; [decide_closed | evaluate]).
Qed.

(** C4: the table lookups are total.  Every [ButtonTheme] has a
    [themeConfig] entry that defines [bg], [border] and [text]; every
    [ButtonSize] has a [sizeConfig] entry that defines [paddingX],
    [paddingY], [textSize] and [rounded]; so neither the render nor the
    style callback of [Button] ever reads a property of a missing entry. *)
Theorem table_lookups_total :
  (∀ theme, ∃ entry,
      Button.themeConfig !! Button.ButtonTheme_str theme = Some entry ∧
      is_Some (entry !! "bg") ∧ is_Some (entry !! "border") ∧
      is_Some (entry !! "text")) ∧
  (∀ size, ∃ entry,
      Button.sizeConfig !! Button.ButtonSize_str size = Some entry ∧
      is_Some (entry !! "paddingX") ∧ is_Some (entry !! "paddingY") ∧
      is_Some (entry !! "textSize") ∧ is_Some (entry !! "rounded")) ∧
  (∀ p, ∃ el,
      Button.Button p = Some el ∧
      ∀ pressed, is_Some (RN.Pressable_style el pressed)).
Proof.
  split; [|split].
  - intros theme.
    assert (Hbg : is_Some (themeClass theme "bg"))
      by (destruct theme; eexists; evaluate).
    assert (Hborder : is_Some (themeClass theme "border"))
      by (destruct theme; eexists; evaluate).
    assert (Htext : is_Some (themeClass theme "text"))
      by (destruct theme; eexists; evaluate).
    unfold themeClass in *.
    destruct (Button.themeConfig !! Button.ButtonTheme_str theme) as [entry|];
      [by exists entry | by destruct Hbg].
  - intros size.
    assert (HpaddingX : is_Some (sizeClass size "paddingX"))
      by (destruct size; eexists; evaluate).
    assert (HpaddingY : is_Some (sizeClass size "paddingY"))
      by (destruct size; eexists; evaluate).
    assert (HtextSize : is_Some (sizeClass size "textSize"))
      by (destruct size; eexists; evaluate).
    assert (Hrounded : is_Some (sizeClass size "rounded"))
      by (destruct size; eexists; evaluate).
    unfold sizeClass in *.
    destruct (Button.sizeConfig !! Button.ButtonSize_str size) as [entry|];
      [by exists entry | by destruct HpaddingX].
  - intros p. button_cases p.
    destruct theme, size, disabled, loading, full;
      (eexists; split; [evaluate|]); intros []; eexists; evaluate.
Qed.

(** C5: [AppText] maps its props to classes by the specification's
    table.  The size contributes its pair of classes and exactly one of
    the four size tests holds; the colour contributes its class and
    exactly one of the three colour tests holds; ['font-bold'] is selected
    exactly when [bold] is true and ['text-center'] exactly when [center]
    is true.  The classes of [className] follow the selected ones. *)
Theorem AppText_class_table children size bold color center className :
  let size' := default AppText.medium size in
  let bold' := default false bold in
  let color' := default AppText.primary color in
  let center' := default false center in
  let selected :=
    RN.Text_style
      (AppText.AppText (ReactNode := ReactNode)
         (AppText.mkAppTextProps children size bold color center None)) in
  RN.Text_style
    (AppText.AppText
       (AppText.mkAppTextProps children size bold color center className))
  = (selected ++ from_option String.words [] className)%list ∧
  selected
  = (String.words (Spec.textSizeClasses size')
     ++ (if bold' then ["font-bold"] else [])
     ++ [Spec.textColorClass color']
     ++ (if center' then ["text-center"] else []))%list ∧
  List.filter id
    [ AppText.Size_str size' === "small"; AppText.Size_str size' === "medium";
      AppText.Size_str size' === "large"; AppText.Size_str size' === "heading" ]
  = [true] ∧
  List.filter id
    [ AppText.Color_str color' === "primary";
      AppText.Color_str color' === "secondary";
      AppText.Color_str color' === "tertiary" ]
  = [true] ∧
  ("font-bold" ∈ selected ↔ bold' = true) ∧
  ("text-center" ∈ selected ↔ center' = true).
Proof.
  intros size' bold' color' center' selected.
  split; [apply AppText_className|].
  subst selected size' bold' color' center'. unfold AppText.AppText.
  generalize (default AppText.medium size) (default false bold)
    (default AppText.primary color) (default false center).
  intros [] [] [] []; repeat split; first [ evaluate | decide_closed ].
Qed.

(** C7: the theme's [pressedBg] class is in the computed style exactly
    when the button is pressed and neither [disabled] nor [loading] is
    true. *)
Theorem pressedBg_iff_pressed_and_enabled p pressed :
  let theme := default Button.primary_outlined (Button.theme p) in
  ∃ classes pressedBg,
    pressableClasses p pressed = Some classes ∧
    themeClass theme "pressedBg" = Some pressedBg ∧
    (pressedBg ∈ classes
       ↔ pressed = true ∧ default false (Button.disabled p) = false
         ∧ default false (Button.loading p) = false).
Proof.
  button_cases p.
  destruct theme, size, disabled, loading, full, pressed;
    (eexists _, _; split; [evaluate|]; split; [evaluate|]; decide_closed).
Qed.

(** C8: omitted props take their defaults.  [Button] without [theme],
    [size], [disabled], [loading] and [full] renders as theme
    ['primary-outlined'] and size ['medium']: transparent background,
    [#F02C56] border and text colour, ['px-4 py-3 rounded-lg'], enabled
    and without ['flex-1'].  [AppText] without [size], [bold], [color] and
    [center] renders with ['text-base mb-3'] and ['text-black'], neither
    bold nor centred. *)
Theorem omitted_props_take_defaults title onPress style rest children className :
  let p : Button.ButtonProps Handler ViewStyle Rest :=
    Button.mkButtonProps title onPress None None None None None style rest in
  let q : AppText.AppTextProps ReactNode :=
    AppText.mkAppTextProps children None None None None className in
  Button.Button p
  = Button.Button
      (Button.mkButtonProps title onPress (Some Button.primary_outlined)
         (Some Button.medium) (Some false) (Some false) (Some false)
         style rest) ∧
  RN.Pressable_disabled <$> Button.Button p = Some false ∧
  computedStyle p false
  = Some (["flex-row"; "items-center"; "justify-center"; "border-[1px]";
           "px-4"; "py-3"; "rounded-lg";
           "bg-transparent"; "border-[#F02C56]"], style) ∧
  computedStyle p true
  = Some (["flex-row"; "items-center"; "justify-center"; "border-[1px]";
           "px-4"; "py-3"; "rounded-lg";
           "bg-transparent"; "border-[#F02C56]"; "bg-[#fef0f3]"], style) ∧
  child p
  = Some (RN.Label
            (RN.mkText ["font-semibold"; "tracking-wide"; "text-base";
                        "text-[#F02C56]"] title)) ∧
  AppText.AppText q
  = AppText.AppText
      (AppText.mkAppTextProps children (Some AppText.medium) (Some false)
         (Some AppText.primary) (Some false) className) ∧
  RN.Text_style (AppText.AppText q)
  = (["text-base"; "mb-3"; "text-black"]
     ++ from_option String.words [] className)%list.
Proof.
  intros p q. subst p q.
  repeat split; try evaluate.
  by rewrite AppText_className.
Qed.

(** C9: the [disabled] flag of the [Pressable] is [disabled || loading],
    so a press reaches the [onPress] handler only when both are false; in
    particular never while [loading], whatever [disabled] is. *)
Theorem loading_disables_press p :
  ∃ el,
    Button.Button p = Some el ∧
    RN.Pressable_disabled el
    = default false (Button.disabled p) || default false (Button.loading p) ∧
    RN.press el
    = if default false (Button.loading p) then None
      else if default false (Button.disabled p) then None
      else Button.onPress p.
Proof.
  button_cases p.
  destruct theme, size, disabled, loading, full;
    (eexists; split; [evaluate|]); by split.
Qed.

(** C10: [getSpinnerColor] follows the specification's table for every
    theme, and a loading button renders a small [ActivityIndicator] of
    that colour. *)
Theorem spinner_color_by_theme :
  (∀ theme, Button.getSpinnerColor theme = Spec.spinnerColor theme) ∧
  (∀ title onPress theme size disabled full style rest,
      child (Handler := Handler) (ViewStyle := ViewStyle) (Rest := Rest)
        (Button.mkButtonProps title onPress theme size disabled (Some true)
           full style rest)
      = Some (RN.Spinner
                (RN.mkActivityIndicator "small"
                   (Spec.spinnerColor
                      (default Button.primary_outlined theme))))).
Proof.
  split.
  - by intros [].
  - intros title onPress theme size disabled full style rest.
    unfold child. rewrite Button_defaults.
    by destruct (default Button.primary_outlined theme),
      (default Button.medium size), (default false disabled),
      (default false full).
Qed.

End Properties.

(** ** The conditional properties at concrete props *)

(** A disabled [light-outlined] button, not loading: it is dimmed and its
    label carries ['text-gray-400']. *)
Lemma disabled_button_look_witness :
  let p : Button.ButtonProps unit unit unit :=
    Button.mkButtonProps "Save" None (Some Button.light_outlined) None
      (Some true) None None None tt in
  (default false (Button.disabled p) = true
   ∨ default false (Button.loading p) = true) ∧
  disabledLook p false ∧
  child p
  = Some (RN.Label
            (RN.mkText ["font-semibold"; "tracking-wide"; "text-base";
                        "text-gray-800"; "text-gray-400"] "Save")).
Proof.
  intros p.
  split; [left; reflexivity|].
  destruct (disabled_button_look p false) as [Hlook Hlabel];
    [left; reflexivity|].
  split; [exact Hlook|].
  exact Hlabel.
Defined.

(** * Further properties of the code *)

(** ** The substring test *)

Lemma append_String a s t : String a s +:+ t = String a (s +:+ t).
Proof. reflexivity. Qed.

Lemma prefix_append pre s :
  String.prefix pre s = true ↔ ∃ post, s = pre +:+ post.
Proof.
  revert s. induction pre as [|a pre IH]; intros s.
  - split; [by exists s | by destruct s].
  - destruct s as [|b s]; simpl.
    + split; [done | by intros [post ?]].
    + setoid_rewrite append_String.
      destruct (Ascii.ascii_dec a b) as [->|Hab].
      * rewrite IH. split; intros [post Hpost]; exists post; congruence.
      * split; [done | intros [post Hpost]; congruence].
Qed.

(** X1: [s.includes(searchString)] holds exactly when [s] is some prefix,
    then [searchString], then some suffix. *)
Theorem includes_iff_infix searchString s :
  JS.includes searchString s = true
  ↔ ∃ pre post, s = pre +:+ searchString +:+ post.
Proof.
  induction s as [|a s IH].
  - change (JS.includes searchString "")
      with (String.prefix searchString "" || false).
    rewrite orb_false_r, prefix_append. split.
    + intros [post Hpost]. by exists "", post.
    + intros (pre & post & Hs). destruct pre; [by exists post|done].
  - change (JS.includes searchString (String a s))
      with (String.prefix searchString (String a s)
            || JS.includes searchString s).
    rewrite orb_true_iff, prefix_append, IH. split.
    + intros [[post Hpost]|(pre & post & ->)].
      * by exists "", post.
      * by exists (String a pre), post.
    + intros (pre & post & Hs). destruct pre as [|b pre].
      * left. by exists post.
      * right. exists pre, post. rewrite append_String in Hs. congruence.
Qed.

(** ** The tables *)

(** X2: the tables have an entry of their own for every theme,
    respectively size, and for nothing else: the own keys of [themeConfig]
    are exactly the six theme strings and those of [sizeConfig] exactly
    the four size strings, and distinct themes, respectively sizes, are
    distinct keys.  (The maps hold the own properties of the object
    literals; names inherited from [Object.prototype] are not keys.) *)
Theorem table_keys :
  dom Button.themeConfig
  = list_to_set
      (Button.ButtonTheme_str
         <$> [Button.primary; Button.action; Button.light;
              Button.primary_outlined; Button.action_outlined;
              Button.light_outlined]) ∧
  dom Button.sizeConfig
  = list_to_set
      (Button.ButtonSize_str
         <$> [Button.small; Button.medium; Button.large; Button.xlarge]) ∧
  (∀ theme theme',
      Button.ButtonTheme_str theme = Button.ButtonTheme_str theme'
      ↔ theme = theme') ∧
  (∀ size size',
      Button.ButtonSize_str size = Button.ButtonSize_str size'
      ↔ size = size').
Proof.
  assert (Htheme : dom Button.themeConfig
    = list_to_set
        (Button.ButtonTheme_str
           <$> [Button.primary; Button.action; Button.light;
                Button.primary_outlined; Button.action_outlined;
                Button.light_outlined])).
  { unfold Button.themeConfig. rewrite !dom_insert_L, dom_singleton_L.
    simpl. set_solver. }
  assert (Hsize : dom Button.sizeConfig
    = list_to_set
        (Button.ButtonSize_str
           <$> [Button.small; Button.medium; Button.large; Button.xlarge])).
  { unfold Button.sizeConfig. rewrite !dom_insert_L, dom_singleton_L.
    simpl. set_solver. }
  split; [exact Htheme|]. split; [exact Hsize|].
  split; intros [] []; decide_closed.
Qed.

(** X3: the themes whose name includes ['outlined'] are the three
    outlined ones, and they are exactly the themes with a transparent
    background, exactly those that keep their background when disabled,
    and exactly those that define a [disabledText] class; every theme
    defines [pressedBg] and [disabledBg]. *)
Theorem outlined_themes theme :
  let outlined := JS.includes "outlined" (Button.ButtonTheme_str theme) in
  (outlined = true
   ↔ theme ∈ [Button.primary_outlined; Button.action_outlined;
              Button.light_outlined]) ∧
  (outlined = true ↔ themeClass theme "bg" = Some "bg-transparent") ∧
  (outlined = true ↔ themeClass theme "disabledBg" = themeClass theme "bg") ∧
  (outlined = true ↔ is_Some (themeClass theme "disabledText")) ∧
  is_Some (themeClass theme "pressedBg") ∧
  is_Some (themeClass theme "disabledBg").
Proof. destruct theme; cbv zeta; decide_closed. Qed.

(** X4: the spinner takes the colour of the border for the outlined
    themes, and for the filled themes the colour of the label text: white
    on [primary] and [action], black on [light]. *)
Theorem spinner_color_matches_theme theme :
  if JS.includes "outlined" (Button.ButtonTheme_str theme)
  then themeClass theme "border"
       = Some ("border-[" +:+ Button.getSpinnerColor theme +:+ "]")
  else (themeClass theme "text", Button.getSpinnerColor theme)
       ∈ [(Some "text-white", COLORS.white); (Some "text-black", COLORS.black)].
Proof. destruct theme; first [ evaluate | decide_closed ]. Qed.

(** ** The rendered button *)

Section ButtonRender.

Context {Handler ViewStyle Rest : Type}.

Implicit Types p : Button.ButtonProps Handler ViewStyle Rest.


(** X6: ['flex-1'] is in the computed style exactly when [full] is true,
    whatever the theme, the size and the state. *)
Theorem full_width_iff_full p pressed :
  ∃ classes,
    pressableClasses p pressed = Some classes ∧
    ("flex-1" ∈ classes ↔ default false (Button.full p) = true).
Proof.
  button_cases p.
  destruct theme, size, disabled, loading, full, pressed;
    (eexists; split; [evaluate|]; decide_closed).
Qed.


(** X8: the background that takes effect.  The last [bg-] class of the
    computed style is the theme's [disabledBg] when [disabled] or
    [loading] is true, else its [pressedBg] when pressed, else its [bg]. *)
Theorem effective_background p pressed :
  let theme := default Button.primary_outlined (Button.theme p) in
  ∃ classes,
    pressableClasses p pressed = Some classes ∧
    lastWithPrefix "bg-" classes
    = if default false (Button.disabled p) || default false (Button.loading p)
      then themeClass theme "disabledBg"
      else if pressed then themeClass theme "pressedBg"
      else themeClass theme "bg".
Proof.
  button_cases p.
  destruct theme, size, disabled, loading, full, pressed;
    (eexists; split; evaluate).
Qed.

(** X9: the label and its colour.  While [loading] is false the child is
    a label with the [title], and the last [text-] class of the label is
    the theme's [disabledText] class when [disabled] is true and the theme
    defines one, and the theme's [text] class otherwise; an enabled
    button never shows the disabled text colour. *)
Theorem label_text_color p :
  let theme := default Button.primary_outlined (Button.theme p) in
  ∃ c,
    child p = Some c ∧
    match c with
    | RN.Label label =>
        default false (Button.loading p) = false ∧
        RN.Text_children label = Button.title p ∧
        lastWithPrefix "text-" (RN.Text_style label)
        = if default false (Button.disabled p)
          then from_option Some (themeClass theme "text")
                 (themeClass theme "disabledText")
          else themeClass theme "text"
    | RN.Spinner _ => default false (Button.loading p) = true
    end.
Proof.
  button_cases p.
  destruct theme, size, disabled, loading, full;
    (eexists; split; [evaluate|]);
    first [ reflexivity | split; [reflexivity|]; split; [reflexivity|evaluate] ].
Qed.


(** X11: the size decides the padding and the rounding, and nothing else
    does: in every theme and state the [px-], [py-] and [rounded-] classes
    of the computed style are exactly the three of the size's entry. *)
Theorem padding_and_rounding_by_size p pressed :
  let size := default Button.medium (Button.size p) in
  ∃ classes,
    pressableClasses p pressed = Some classes ∧
    Some <$> List.filter (Tailwind.startsWith ["px-"; "py-"; "rounded-"]) classes
    = [sizeClass size "paddingX"; sizeClass size "paddingY";
       sizeClass size "rounded"].
Proof.
  button_cases p.
  destruct theme, size, disabled, loading, full, pressed;
    (eexists; split; evaluate).
Qed.

(** X12: the border never changes with the state: in every state the
    [border-] classes of the computed style are the one-pixel width and
    the theme's border colour. *)
Theorem border_by_theme p pressed :
  let theme := default Button.primary_outlined (Button.theme p) in
  ∃ classes,
    pressableClasses p pressed = Some classes ∧
    Some <$> List.filter (String.prefix "border-") classes
    = [Some "border-[1px]"; themeClass theme "border"].
Proof.
  button_cases p.
  destruct theme, size, disabled, loading, full, pressed;
    (eexists; split; evaluate).
Qed.

End ButtonRender.

(** ** Defaults and [className] *)

Section Defaults.

Context {Handler ViewStyle Rest ReactNode : Type}.

(** X13: every omitted style-selection prop, alone or with others, renders
    as its default given explicitly: ['primary-outlined'], ['medium'] and
    [false] for [Button]; ['medium'], ['primary'] and [false] for
    [AppText]. *)
Theorem each_omitted_prop_is_its_default
    title onPress theme size disabled loading full style rest
    children textSize bold color center className :
  Button.Button (Handler := Handler) (ViewStyle := ViewStyle) (Rest := Rest)
    (Button.mkButtonProps title onPress theme size disabled loading full
       style rest)
  = Button.Button
      (Button.mkButtonProps title onPress
         (Some (default Button.primary_outlined theme))
         (Some (default Button.medium size))
         (Some (default false disabled))
         (Some (default false loading))
         (Some (default false full))
         style rest) ∧
  AppText.AppText (ReactNode := ReactNode)
    (AppText.mkAppTextProps children textSize bold color center className)
  = AppText.AppText
      (AppText.mkAppTextProps children
         (Some (default AppText.medium textSize))
         (Some (default false bold))
         (Some (default AppText.primary color))
         (Some (default false center))
         className).
Proof.
  split; [apply Button_defaults|].
  by destruct textSize, bold, color, center.
Qed.

(** X14: a [className] without any class, such as the empty string, is
    as good as none. *)
Theorem blank_className_is_omitted children size bold color center className :
  String.words className = [] →
  AppText.AppText (ReactNode := ReactNode)
    (AppText.mkAppTextProps children size bold color center (Some className))
  = AppText.AppText
      (AppText.mkAppTextProps children size bold color center None).
Proof.
  intros Hblank.
  pose proof (AppText_className (ReactNode := ReactNode) children size bold
                color center (Some className)) as Hstyle.
  simpl in Hstyle. rewrite Hblank, app_nil_r in Hstyle.
  unfold AppText.AppText in *. simpl in *. by rewrite Hstyle.
Qed.

End Defaults.

(** ** A blank [className] at concrete props *)

Lemma blank_className_is_omitted_witness :
  String.words "  " = [] ∧
  AppText.AppText
    (AppText.mkAppTextProps tt (Some AppText.large) None None None (Some "  "))
  = AppText.AppText
      (AppText.mkAppTextProps tt (Some AppText.large) None None None None).
Proof.
  split; [reflexivity|].
  by apply (blank_className_is_omitted (ReactNode := unit)).
Defined.
